(** * ChatterBot: the logic-adapter contract and its best-match search

    A shallow embedding of [chatterbot/logic/logic_adapter.py] (class
    [LogicAdapter]) together with the collaborators the adapter contract
    talks about: the base class [Adapter], the identifier resolver
    [import_module], the exclusion filter and the paged best-match search.

    Python objects are modelled by the inductive [Value]; a keyword
    dictionary is a [gmap string Value]; a call that may raise returns a
    [result]; a method of an object returns its outcome together with the
    object's state after the call. *)

From Stdlib Require Import Ascii String QArith.
From stdpp Require Import base option list gmap strings.

Local Open Scope string_scope.
Local Open Scope list_scope.

(** ** Python values and exceptions *)

(** The values that travel through the adapter's keyword arguments.
    Floats are written as the rational their literal denotes; mutable
    containers (lists, sets, dicts) live on the heap and a value only holds
    their address, so that storing such a value shares the object and does
    not duplicate it. Functions are identified by their dotted path. *)
Inductive Value : Type :=
  | VNone
  | VBool (b : bool)
  | VInt (z : Z)
  | VFloat (q : Q)
  | VStr (s : string)
  | VCallable (dotted_path : string)
  | VRef (addr : positive).

(** [isinstance(v, str)] *)
Definition isinstance_str (v : Value) : bool :=
  match v with
  | VStr _ => true
  | _ => false
  end.

Inductive exn : Type :=
  | ConfigurationError (identifier : string)
  | AdapterMethodNotImplementedError (message : string).

(** The outcome of a call: a returned value or a raised exception. *)
Inductive result (A : Type) : Type :=
  | Return (a : A)
  | Raise (e : exn).
Arguments Return {A} a.
Arguments Raise {A} e.

#[global] Instance result_ret : MRet result := λ A a, Return a.
#[global] Instance result_bind : MBind result := λ A B f m,
  match m with
  | Return a => f a
  | Raise e => Raise e
  end.

(** [kwargs.get(key, default)] *)
Definition dict_get (kwargs : gmap string Value) (key : string) (dflt : Value) : Value :=
  default dflt (kwargs !! key).

(** ** The base class [chatterbot.adapters.Adapter] *)

Module Adapter.

(** Modelled from the spec: the base class [Adapter] of
    [chatterbot.adapters] is not among the sources. The construction
    contract names a failed identifier resolution as the only way the
    construction of an adapter fails, so the base initialiser records the
    chatbot it is given and returns normally, whatever the keyword
    arguments are. *)
Definition __init__ (chatbot : Value) (kwargs : gmap string Value) : result Value :=
  Return chatbot.

(** Modelled from the spec: the exception class
    [Adapter.AdapterMethodNotImplementedError], declared in the absent base
    class, is a [NotImplementedError]-class signal; it is raised without
    arguments and carries the class's default message. *)
Definition default_message : string :=
  "This method must be overridden in a subclass method.".

Definition is_NotImplementedError (e : exn) : bool :=
  match e with
  | AdapterMethodNotImplementedError _ => true
  | ConfigurationError _ => false
  end.

End Adapter.

(** ** The identifier resolver [chatterbot.utils.import_module] *)

(** Modelled from the spec: [import_module] of [chatterbot.utils] is not
    among the sources. It is the ConfigResolver: [resolve(identifier) ->
    Callable] over a registry mapping string identifiers to functions,
    failing with a [ConfigurationError] that names the identifier when the
    identifier cannot be located. *)
Definition import_module (registry : gmap string Value) (dotted_path : string) : result Value :=
  match registry !! dotted_path with
  | Some f => Return f
  | None => Raise (ConfigurationError dotted_path)
  end.

(** The two functions the constructor imports for its defaults. *)
Definition levenshtein_distance : Value :=
  VCallable "chatterbot.comparisons.levenshtein_distance".
Definition get_first_response : Value :=
  VCallable "chatterbot.response_selection.get_first_response".

(** ** Statements *)

(** A unit of dialogue text with its auxiliary metadata (provenance, the
    statement it responds to, ...). *)
Record Statement : Type := {
  text : string;
  metadata : list (string * string)
}.

(** ** [class LogicAdapter(Adapter)] *)

Module LogicAdapter.

(** An instance: its class (the class that was instantiated, a subclass
    of [LogicAdapter] or [LogicAdapter] itself) and its attributes. *)
Record t : Type := mk {
  class__name__ : string;
  chatbot : Value;
  maximum_similarity_threshold : Value;
  excluded_words : Value;
  search_page_size : Value;
  compare_statements : Value;
  select_response : Value
}.

(** The block repeated for both string module parameters:
    [if key in kwargs: import_path = kwargs.get(key);
     if isinstance(import_path, str): kwargs[key] = import_module(import_path)] *)
Definition import_string_parameter (registry : gmap string Value)
    (key : string) (kwargs : gmap string Value) : result (gmap string Value) :=
  match kwargs !! key with
  | Some import_path =>
      match import_path with
      | VStr path =>
          f ← import_module registry path;
          Return (<[key := f]> kwargs)
      | _ => Return kwargs
      end
  | None => Return kwargs
  end.

(** [__init__(self, chatbot, **kwargs)], for an instance of class [cls];
    [registry] is what [import_module] can locate. *)
Definition __init__ (registry : gmap string Value) (cls : string)
    (chatbot : Value) (kwargs : gmap string Value) : result t :=
  self_chatbot ← Adapter.__init__ chatbot kwargs;
  kwargs ← import_string_parameter registry "statement_comparison_function" kwargs;
  kwargs ← import_string_parameter registry "response_selection_method" kwargs;
  Return {|
    class__name__ := cls;
    chatbot := self_chatbot;
    maximum_similarity_threshold :=
      dict_get kwargs "maximum_similarity_threshold" (VFloat (95 # 100));
    excluded_words := dict_get kwargs "excluded_words" VNone;
    search_page_size := dict_get kwargs "search_page_size" (VInt 1000);
    compare_statements :=
      dict_get kwargs "statement_comparison_function" levenshtein_distance;
    select_response :=
      dict_get kwargs "response_selection_method" get_first_response
  |}.

(** A method call on an instance yields its outcome and the instance as
    the call leaves it. *)

(** [can_process(self, statement)]: [return True] *)
Definition can_process (self : t) (statement : Statement) : result bool * t :=
  (Return true, self).

(** [process(self, statement)]:
    [raise self.AdapterMethodNotImplementedError()] *)
Definition process (self : t) (statement : Statement)
    : result (Statement * Q) * t :=
  (Raise (AdapterMethodNotImplementedError Adapter.default_message), self).

(** The property [class_name]: [return str(self.__class__.__name__)] *)
Definition class_name (self : t) : result string * t :=
  (Return (class__name__ self), self).

(** The invariant the data model states for the stored configuration:
    [0 <= maximum_similarity_threshold <= 1] and [search_page_size > 0]. *)
Definition threshold_in_range (v : Value) : bool :=
  match v with
  | VFloat q => Qle_bool 0 q && Qle_bool q 1
  | VInt z => (0 <=? z)%Z && (z <=? 1)%Z
  | _ => false
  end.

Definition page_size_positive (v : Value) : bool :=
  match v with
  | VInt z => (0 <? z)%Z
  | _ => false
  end.

Definition config_invariant (self : t) : bool :=
  threshold_in_range (maximum_similarity_threshold self)
  && page_size_positive (search_page_size self).

End LogicAdapter.

(** ** Rational comparisons as booleans *)

Definition Qlt_bool (x y : Q) : bool :=
  (Qnum x * QDen y <? Qnum y * QDen x)%Z.

(** ** The exclusion filter *)

Module ExclusionFilter.

(** Modelled from the spec: the exclusion filter is not among the sources.
    [rejects(text)] holds when some configured excluded word is, up to
    letter case, one of the whole words of the text; a word that only
    occurs inside a longer token does not count. With an empty or absent
    exclusion set nothing is rejected. *)

Definition lower_ascii (c : ascii) : ascii :=
  let n := nat_of_ascii c in
  if (65 <=? n)%nat && (n <=? 90)%nat then ascii_of_nat (n + 32) else c.

Fixpoint lower (s : string) : string :=
  match s with
  | EmptyString => EmptyString
  | String c r => String (lower_ascii c) (lower r)
  end.

(** Letters, digits and the underscore make up a token. *)
Definition is_word_char (c : ascii) : bool :=
  let n := nat_of_ascii c in
  ((48 <=? n)%nat && (n <=? 57)%nat)
  || ((65 <=? n)%nat && (n <=? 90)%nat)
  || ((97 <=? n)%nat && (n <=? 122)%nat)
  || (n =? 95)%nat.

Definition flush (cur : string) : list string :=
  match cur with
  | EmptyString => []
  | _ => [cur]
  end.

(** The tokens of [s], [cur] being the token read so far. *)
Fixpoint tokens_go (cur : string) (s : string) : list string :=
  match s with
  | EmptyString => flush cur
  | String c r =>
      if is_word_char c then tokens_go (cur +:+ String c EmptyString) r
      else flush cur ++ tokens_go EmptyString r
  end.

Definition tokens (s : string) : list string := tokens_go EmptyString s.

(** Modelled from the spec: [rejects(text) -> bool], a case-insensitive
    whole-word match against the configured words; never with an absent or
    empty set. *)
Definition rejects (excluded_words : option (list string)) (txt : string) : bool :=
  match excluded_words with
  | None => false
  | Some words =>
      existsb (fun tok => existsb (fun w => String.eqb (lower w) tok) words)
              (tokens (lower txt))
  end.

End ExclusionFilter.

(** ** The paged best-match search *)

Module MatchSearch.

(** Modelled from the spec: the search itself is not among the sources;
    the adapter only documents [maximum_similarity_threshold] as the
    similarity at which it halts. The search consumes the corpus page by
    page; in a page it visits the statements in order; a statement the
    exclusion filter rejects is skipped entirely; any other statement is
    scored, replaces the running best when there is none or when its
    score is strictly greater, and the whole search stops as soon as the
    running best's score is greater than or equal to the threshold. The
    state records, besides the running best, which statements were scored
    and how many pages were fetched. *)

Record state : Type := mk {
  best : option (Statement * Q);
  scored : list Statement;
  pages_fetched : nat;
  halted : bool
}.

Definition initial : state :=
  {| best := None; scored := []; pages_fetched := 0; halted := false |}.

Section Search.

Variable input : Statement.
Variable score_fn : Statement -> Statement -> Q.
Variable exclusion : option (list string).
Variable threshold : Q.

Definition admissible (s : Statement) : bool :=
  negb (ExclusionFilter.rejects exclusion (text s)).

(** Step 3c: the running best after [s] scored [score]. *)
Definition update_best (b : option (Statement * Q)) (s : Statement) (score : Q)
    : option (Statement * Q) :=
  match b with
  | None => Some (s, score)
  | Some (_, best_score) =>
      if Qlt_bool best_score score then Some (s, score) else b
  end.

(** The running best after the admissible statements [l] were scored in
    order, starting from [b]. *)
Definition best_after (b : option (Statement * Q)) (l : list Statement)
    : option (Statement * Q) :=
  fold_left (fun b s => update_best b s (score_fn input s)) l b.

(** Step 3d: has the running best reached the threshold? *)
Definition reached (b : option (Statement * Q)) : bool :=
  match b with
  | None => false
  | Some (_, best_score) => Qle_bool threshold best_score
  end.

(** Modelled from the spec: steps 3a to 3d of the search for one statement
    (the search is not among the sources). *)
Definition visit (st : state) (s : Statement) : state :=
  if ExclusionFilter.rejects exclusion (text s) then st
  else
    let score := score_fn input s in
    let b := update_best (best st) s score in
    {| best := b;
       scored := scored st ++ [s];
       pages_fetched := pages_fetched st;
       halted := reached b |}.

(** Modelled from the spec: step 3 for one page, stopping at the first
    statement that halts the search. *)
Fixpoint scan_page (st : state) (page : list Statement) : state :=
  match page with
  | [] => st
  | s :: rest =>
      let st' := visit st s in
      if halted st' then st' else scan_page st' rest
  end.

Definition fetch (st : state) : state :=
  {| best := best st;
     scored := scored st;
     pages_fetched := S (pages_fetched st);
     halted := halted st |}.

(** Modelled from the spec: step 2, the pages fetched one at a time and
    none after the search halted. That a page holds at most
    [search_page_size] statements is the corpus source's guarantee; the
    search does not depend on it. *)
Fixpoint scan_pages (st : state) (corpus_pages : list (list Statement)) : state :=
  match corpus_pages with
  | [] => st
  | page :: later =>
      let st' := scan_page (fetch st) page in
      if halted st' then st' else scan_pages st' later
  end.

(** A state is clean when neither its running best nor any statement it
    scored is rejected by the exclusion filter. *)
Definition clean (st : state) : Prop :=
  match best st with
  | Some (b, _) => admissible b = true
  | None => True
  end /\
  Forall (fun s => admissible s = true) (scored st).

Definition run (corpus_pages : list (list Statement)) : state :=
  scan_pages initial corpus_pages.

(** Modelled from the spec: [search(...) -> ScoredCandidate | None], the
    running best when the scan ends (steps 1 and 4). *)
Definition search (corpus_pages : list (list Statement)) : option (Statement * Q) :=
  best (run corpus_pages).

End Search.

End MatchSearch.

(** * Properties *)

(** ** Comparisons *)

Lemma Qlt_bool_iff (x y : Q) : Qlt_bool x y = true <-> (x < y)%Q.
Proof. unfold Qlt_bool, Qlt. apply Z.ltb_lt. Qed.

Lemma Qlt_bool_false_iff (x y : Q) : Qlt_bool x y = false <-> (y <= x)%Q.
Proof.
  unfold Qlt_bool, Qle. rewrite Z.ltb_ge. reflexivity.
Qed.

Lemma Qle_bool_false_iff (x y : Q) : Qle_bool x y = false <-> (y < x)%Q.
Proof.
  rewrite <- not_true_iff_false, Qle_bool_iff. split.
  - apply Qnot_le_lt.
  - apply Qlt_not_le.
Qed.

(** ** Construction of a logic adapter *)

Section Construction.

Import LogicAdapter.

Variable registry : gmap string Value.

Lemma import_string_parameter_returns key (kwargs kwargs' : gmap string Value) :
  import_string_parameter registry key kwargs = Return kwargs' ->
  (forall k, k <> key -> kwargs' !! k = kwargs !! k) /\
  match kwargs !! key with
  | None => kwargs' !! key = None
  | Some (VStr path) =>
      exists f, registry !! path = Some f /\ kwargs' !! key = Some f
  | Some v => kwargs' !! key = Some v
  end.
Proof.
  unfold import_string_parameter, import_module.
  destruct (kwargs !! key) as [v|] eqn:Hk.
  - destruct v; try (intros [= <-]; rewrite Hk; split; [reflexivity | reflexivity]).
    destruct (registry !! s) as [f|] eqn:Hr; simpl; [| discriminate].
    intros [= <-]. split.
    + intros k Hne. apply lookup_insert_ne. congruence.
    + exists f. split; [reflexivity | apply lookup_insert_eq].
  - intros [= <-]. rewrite Hk. split; reflexivity.
Qed.

Lemma import_string_parameter_raises key (kwargs : gmap string Value) e :
  import_string_parameter registry key kwargs = Raise e ->
  exists path,
    kwargs !! key = Some (VStr path) /\ registry !! path = None /\
    e = ConfigurationError path.
Proof.
  unfold import_string_parameter, import_module.
  destruct (kwargs !! key) as [v|]; [| discriminate].
  destruct v; try discriminate.
  destruct (registry !! s) as [f|] eqn:Hr; simpl; [discriminate |].
  intros [= <-]. exists s. auto.
Qed.

Lemma import_string_parameter_not_str key (kwargs : gmap string Value) v :
  kwargs !! key = Some v -> isinstance_str v = false ->
  import_string_parameter registry key kwargs = Return kwargs.
Proof.
  unfold import_string_parameter. intros -> Hv.
  destruct v; try reflexivity. discriminate.
Qed.

(** What a returning constructor went through. *)
Lemma init_returns cls chatbot kwargs self :
  __init__ registry cls chatbot kwargs = Return self ->
  exists kwargs1 kwargs2,
    import_string_parameter registry "statement_comparison_function" kwargs
      = Return kwargs1 /\
    import_string_parameter registry "response_selection_method" kwargs1
      = Return kwargs2 /\
    self = {|
      class__name__ := cls;
      chatbot := chatbot;
      maximum_similarity_threshold :=
        dict_get kwargs2 "maximum_similarity_threshold" (VFloat (95 # 100));
      excluded_words := dict_get kwargs2 "excluded_words" VNone;
      search_page_size := dict_get kwargs2 "search_page_size" (VInt 1000);
      compare_statements :=
        dict_get kwargs2 "statement_comparison_function" levenshtein_distance;
      select_response :=
        dict_get kwargs2 "response_selection_method" get_first_response
    |}.
Proof.
  unfold __init__, Adapter.__init__. simpl.
  destruct (import_string_parameter registry "statement_comparison_function" kwargs)
    as [kwargs1|e1] eqn:H1; simpl; [| discriminate].
  destruct (import_string_parameter registry "response_selection_method" kwargs1)
    as [kwargs2|e2] eqn:H2; simpl; [| discriminate].
  intros [= <-]. exists kwargs1, kwargs2. auto.
Qed.

(** Keys other than the two string module parameters are read from the
    keyword arguments as they were passed. *)
Lemma init_other_key cls chatbot kwargs self :
  __init__ registry cls chatbot kwargs = Return self ->
  exists kwargs2,
    (forall k, k <> "statement_comparison_function" ->
               k <> "response_selection_method" ->
               kwargs2 !! k = kwargs !! k) /\
    maximum_similarity_threshold self
      = dict_get kwargs2 "maximum_similarity_threshold" (VFloat (95 # 100)) /\
    excluded_words self = dict_get kwargs2 "excluded_words" VNone /\
    search_page_size self = dict_get kwargs2 "search_page_size" (VInt 1000).
Proof.
  intros (kwargs1 & kwargs2 & H1 & H2 & ->)%init_returns.
  apply import_string_parameter_returns in H1 as [H1 _].
  apply import_string_parameter_returns in H2 as [H2 _].
  exists kwargs2. repeat split; try reflexivity.
  intros k Ha Hb. rewrite H2, H1 by assumption. reflexivity.
Qed.

End Construction.

(** C2: when an option is omitted from the keyword arguments, the
    constructed adapter holds the documented default for it: 0.95 for
    [maximum_similarity_threshold], 1000 for [search_page_size], [None] for
    [excluded_words], [levenshtein_distance] for [compare_statements] and
    [get_first_response] for [select_response]. *)
Theorem C2_omitted_options_take_defaults
    (registry : gmap string Value) (cls : string) (chatbot : Value)
    (kwargs : gmap string Value) (self : LogicAdapter.t) :
  LogicAdapter.__init__ registry cls chatbot kwargs = Return self ->
  (kwargs !! "maximum_similarity_threshold" = None ->
     LogicAdapter.maximum_similarity_threshold self = VFloat (95 # 100)) /\
  (kwargs !! "search_page_size" = None ->
     LogicAdapter.search_page_size self = VInt 1000) /\
  (kwargs !! "excluded_words" = None ->
     LogicAdapter.excluded_words self = VNone) /\
  (kwargs !! "statement_comparison_function" = None ->
     LogicAdapter.compare_statements self = levenshtein_distance) /\
  (kwargs !! "response_selection_method" = None ->
     LogicAdapter.select_response self = get_first_response).
Proof.
  intros Hinit.
  destruct (init_other_key _ _ _ _ _ Hinit) as (kw & Hkw & -> & -> & ->).
  apply init_returns in Hinit as (kwargs1 & kwargs2 & H1 & H2 & ->).
  apply import_string_parameter_returns in H1 as [H1 H1'].
  apply import_string_parameter_returns in H2 as [H2 H2'].
  unfold dict_get. simpl. repeat split; intros Hnone.
  - rewrite Hkw, Hnone by discriminate. reflexivity.
  - rewrite Hkw, Hnone by discriminate. reflexivity.
  - rewrite Hkw, Hnone by discriminate. reflexivity.
  - rewrite H2 by discriminate.
    rewrite Hnone in H1'. rewrite H1'. reflexivity.
  - rewrite <- H1 in Hnone by discriminate.
    rewrite Hnone in H2'. rewrite H2'. reflexivity.
Qed.

Lemma C2_omitted_options_take_defaults_witness :
  let self :=
    LogicAdapter.mk "BestMatch" VNone (VFloat (95 # 100)) VNone (VInt 1000)
                    levenshtein_distance get_first_response in
  LogicAdapter.__init__ ∅ "BestMatch" VNone ∅ = Return self /\
  LogicAdapter.maximum_similarity_threshold self = VFloat (95 # 100) /\
  LogicAdapter.search_page_size self = VInt 1000 /\
  LogicAdapter.excluded_words self = VNone /\
  LogicAdapter.compare_statements self = levenshtein_distance /\
  LogicAdapter.select_response self = get_first_response.
Proof.
  intros self.
  assert (Hinit : LogicAdapter.__init__ ∅ "BestMatch" VNone ∅ = Return self)
    by reflexivity.
  split; [exact Hinit |].
  destruct (C2_omitted_options_take_defaults ∅ "BestMatch" VNone ∅ self Hinit)
    as (H1 & H2 & H3 & H4 & H5).
  repeat apply conj; [apply H1 | apply H2 | apply H3 | apply H4 | apply H5];
    reflexivity.
Defined.

(** How a failed construction failed. *)
Lemma init_raises registry cls chatbot kwargs e :
  LogicAdapter.__init__ registry cls chatbot kwargs = Raise e ->
  LogicAdapter.import_string_parameter registry "statement_comparison_function" kwargs
    = Raise e \/
  exists kwargs1,
    LogicAdapter.import_string_parameter registry "statement_comparison_function" kwargs
      = Return kwargs1 /\
    LogicAdapter.import_string_parameter registry "response_selection_method" kwargs1
      = Raise e.
Proof.
  unfold LogicAdapter.__init__, Adapter.__init__. simpl.
  destruct (LogicAdapter.import_string_parameter registry
              "statement_comparison_function" kwargs)
    as [kwargs1|e1] eqn:H1; simpl.
  - destruct (LogicAdapter.import_string_parameter registry
                "response_selection_method" kwargs1)
      as [kwargs2|e2] eqn:H2; simpl; [discriminate |].
    intros [= <-]. right. exists kwargs1. auto.
  - intros [= <-]. left. reflexivity.
Qed.

(** C3: a strategy option supplied as a string is resolved before it is
    stored, so a returning constructor holds the resolved function; when the
    identifier cannot be resolved the constructor raises a
    [ConfigurationError] naming it; and every failure of the constructor is
    a [ConfigurationError] that names an unresolved identifier supplied
    under one of the two options. *)
Theorem C3_string_identifiers_are_resolved
    (registry : gmap string Value) (cls : string) (chatbot : Value)
    (kwargs : gmap string Value) :
  (forall path, kwargs !! "statement_comparison_function" = Some (VStr path) ->
     match registry !! path with
     | Some f =>
         forall self, LogicAdapter.__init__ registry cls chatbot kwargs = Return self ->
                      LogicAdapter.compare_statements self = f
     | None =>
         LogicAdapter.__init__ registry cls chatbot kwargs
           = Raise (ConfigurationError path)
     end) /\
  (forall path, kwargs !! "response_selection_method" = Some (VStr path) ->
     match registry !! path with
     | Some f =>
         forall self, LogicAdapter.__init__ registry cls chatbot kwargs = Return self ->
                      LogicAdapter.select_response self = f
     | None =>
         exists unresolved,
           LogicAdapter.__init__ registry cls chatbot kwargs
             = Raise (ConfigurationError unresolved) /\
           registry !! unresolved = None /\
           (unresolved = path \/
            kwargs !! "statement_comparison_function" = Some (VStr unresolved))
     end) /\
  (forall e, LogicAdapter.__init__ registry cls chatbot kwargs = Raise e ->
     exists unresolved,
       e = ConfigurationError unresolved /\
       registry !! unresolved = None /\
       (kwargs !! "statement_comparison_function" = Some (VStr unresolved) \/
        kwargs !! "response_selection_method" = Some (VStr unresolved))).
Proof.
  split; [| split].
  - intros path Hk.
    destruct (registry !! path) as [f|] eqn:Hr.
    + intros self (kwargs1 & kwargs2 & H1 & H2 & ->)%init_returns.
      apply import_string_parameter_returns in H1 as [_ H1].
      apply import_string_parameter_returns in H2 as [H2 _].
      rewrite Hk in H1. destruct H1 as (f' & Hf' & H1).
      simpl. unfold dict_get. rewrite H2, H1 by discriminate.
      simpl. congruence.
    + unfold LogicAdapter.__init__, Adapter.__init__,
        LogicAdapter.import_string_parameter, import_module. simpl.
      rewrite Hk, Hr. reflexivity.
  - intros path Hk.
    destruct (registry !! path) as [f|] eqn:Hr.
    + intros self (kwargs1 & kwargs2 & H1 & H2 & ->)%init_returns.
      apply import_string_parameter_returns in H1 as [H1 _].
      apply import_string_parameter_returns in H2 as [_ H2].
      rewrite H1, Hk in H2 by discriminate. destruct H2 as (f' & Hf' & H2).
      simpl. unfold dict_get. rewrite H2. simpl. congruence.
    + destruct (LogicAdapter.__init__ registry cls chatbot kwargs) as [self|e] eqn:Hi.
      * apply init_returns in Hi as (kwargs1 & kwargs2 & H1 & H2 & _).
        apply import_string_parameter_returns in H1 as [H1 _].
        apply import_string_parameter_returns in H2 as [_ H2].
        rewrite H1, Hk in H2 by discriminate. destruct H2 as (f' & Hf' & _).
        congruence.
      * apply init_raises in Hi as [H1 | (kwargs1 & H1 & H2)].
        -- apply import_string_parameter_raises in H1 as (p & Hp & Hnone & ->).
           exists p. auto.
        -- apply import_string_parameter_returns in H1 as [H1 _].
           apply import_string_parameter_raises in H2 as (p & Hp & Hnone & ->).
           rewrite H1, Hk in Hp by discriminate. injection Hp as <-.
           exists path. auto.
  - intros e [H1 | (kwargs1 & H1 & H2)]%init_raises.
    + apply import_string_parameter_raises in H1 as (p & Hp & Hnone & ->).
      exists p. auto.
    + apply import_string_parameter_returns in H1 as [H1 _].
      apply import_string_parameter_raises in H2 as (p & Hp & Hnone & ->).
      rewrite H1 in Hp by discriminate. exists p. auto.
Qed.

Lemma C3_string_identifiers_are_resolved_witness :
  LogicAdapter.__init__ ∅ "BestMatch" VNone
    {[ "statement_comparison_function" := VStr "no.such.function" ]}
  = Raise (ConfigurationError "no.such.function").
Proof.
  pose proof (proj1 (C3_string_identifiers_are_resolved ∅ "BestMatch" VNone
    {[ "statement_comparison_function" := VStr "no.such.function" ]})
    "no.such.function") as H.
  apply H. reflexivity.
Defined.

(** ** The operations of the base contract *)

(** C4: [process] of the abstract contract raises, whatever the statement,
    an exception of the [NotImplementedError] class; the method has no
    handler, so the exception is the outcome of the call, and the adapter
    is left as it was. *)
Theorem C4_process_raises_not_implemented
    (self : LogicAdapter.t) (statement : Statement) :
  exists e,
    LogicAdapter.process self statement = (Raise e, self) /\
    Adapter.is_NotImplementedError e = true.
Proof.
  exists (AdapterMethodNotImplementedError Adapter.default_message).
  split; reflexivity.
Qed.

(** C5: [can_process] of the base contract returns true for every
    statement; it does not raise and leaves the adapter as it was. *)
Theorem C5_can_process_returns_true
    (self : LogicAdapter.t) (statement : Statement) :
  LogicAdapter.can_process self statement = (Return true, self).
Proof. reflexivity. Qed.

(** C8: [class_name] returns the name of the adapter's class as a string,
    does not raise and leaves the adapter as it was; for an adapter
    constructed as an instance of class [cls], that name is [cls]. *)
Theorem C8_class_name_is_the_concrete_class (self : LogicAdapter.t) :
  LogicAdapter.class_name self = (Return (LogicAdapter.class__name__ self), self) /\
  forall registry cls chatbot kwargs,
    LogicAdapter.__init__ registry cls chatbot kwargs = Return self ->
    LogicAdapter.class_name self = (Return cls, self).
Proof.
  split; [reflexivity |].
  intros registry cls chatbot kwargs (kwargs1 & kwargs2 & _ & _ & ->)%init_returns.
  reflexivity.
Qed.

Lemma C8_class_name_is_the_concrete_class_witness :
  let self :=
    LogicAdapter.mk "BestMatch" VNone (VFloat (95 # 100)) VNone (VInt 1000)
                    levenshtein_distance get_first_response in
  LogicAdapter.__init__ ∅ "BestMatch" VNone ∅ = Return self /\
  LogicAdapter.class_name self = (Return "BestMatch", self).
Proof.
  intros self.
  assert (Hinit : LogicAdapter.__init__ ∅ "BestMatch" VNone ∅ = Return self)
    by reflexivity.
  split; [exact Hinit |].
  exact (proj2 (C8_class_name_is_the_concrete_class self)
               ∅ "BestMatch" VNone ∅ Hinit).
Defined.

(** C9: a value supplied under a strategy option that is not a string is
    not resolved: the keyword arguments are left as they are and the
    constructed adapter holds that very value. *)
Theorem C9_non_string_strategy_is_stored_unchanged
    (registry : gmap string Value) (cls : string) (chatbot : Value)
    (kwargs : gmap string Value) (key : string) (v : Value) :
  kwargs !! key = Some v ->
  isinstance_str v = false ->
  LogicAdapter.import_string_parameter registry key kwargs = Return kwargs /\
  forall self,
    LogicAdapter.__init__ registry cls chatbot kwargs = Return self ->
    (key = "statement_comparison_function" ->
       LogicAdapter.compare_statements self = v) /\
    (key = "response_selection_method" ->
       LogicAdapter.select_response self = v).
Proof.
  intros Hk Hv. split.
  - exact (import_string_parameter_not_str registry key kwargs v Hk Hv).
  - intros self (kwargs1 & kwargs2 & H1 & H2 & ->)%init_returns.
    simpl. unfold dict_get. split; intros ->.
    + rewrite (import_string_parameter_not_str _ _ _ _ Hk Hv) in H1.
      injection H1 as <-.
      apply import_string_parameter_returns in H2 as [H2 _].
      rewrite H2, Hk by discriminate. reflexivity.
    + apply import_string_parameter_returns in H1 as [H1 _].
      rewrite <- H1 in Hk by discriminate.
      rewrite (import_string_parameter_not_str _ _ _ _ Hk Hv) in H2.
      injection H2 as <-. rewrite Hk. reflexivity.
Qed.

Lemma C9_non_string_strategy_is_stored_unchanged_witness :
  let kwargs : gmap string Value :=
    {[ "statement_comparison_function" := VCallable "my_app.compare" ]} in
  let self :=
    LogicAdapter.mk "BestMatch" VNone (VFloat (95 # 100)) VNone (VInt 1000)
                    (VCallable "my_app.compare") get_first_response in
  LogicAdapter.__init__ ∅ "BestMatch" VNone kwargs = Return self /\
  LogicAdapter.compare_statements self = VCallable "my_app.compare".
Proof.
  intros kwargs self.
  assert (Hinit : LogicAdapter.__init__ ∅ "BestMatch" VNone kwargs = Return self)
    by reflexivity.
  assert (Hk : kwargs !! "statement_comparison_function"
               = Some (VCallable "my_app.compare")) by reflexivity.
  split; [exact Hinit |].
  destruct (C9_non_string_strategy_is_stored_unchanged ∅ "BestMatch" VNone kwargs
              "statement_comparison_function" (VCallable "my_app.compare")
              Hk eq_refl) as [_ H].
  apply (H self Hinit). reflexivity.
Defined.

(** ** Options the constructor only copies *)

(** Setting an option other than [key] commutes with the resolution of the
    string parameter [key]. *)
Lemma import_string_parameter_insert registry key k v (kwargs : gmap string Value) :
  k <> key ->
  LogicAdapter.import_string_parameter registry key (<[k := v]> kwargs)
  = match LogicAdapter.import_string_parameter registry key kwargs with
    | Return kwargs' => Return (<[k := v]> kwargs')
    | Raise e => Raise e
    end.
Proof.
  intros Hne. unfold LogicAdapter.import_string_parameter, import_module.
  rewrite lookup_insert_ne by exact Hne.
  destruct (kwargs !! key) as [w|]; [| reflexivity].
  destruct w; try reflexivity.
  destruct (registry !! s) as [f|]; simpl; [| reflexivity].
  rewrite insert_insert_ne by congruence. reflexivity.
Qed.

(** C10: the constructor stores under [excluded_words] the value supplied
    for the option, whatever it is, and [None] when the option is absent;
    and supplying any value for the option changes nothing else in the
    outcome of the construction: it fails exactly when it failed without,
    with the same exception, and otherwise yields the same adapter with
    that value as its [excluded_words]. *)
Theorem C10_excluded_words_stored_as_given
    (registry : gmap string Value) (cls : string) (chatbot : Value)
    (kwargs : gmap string Value) :
  (forall self,
     LogicAdapter.__init__ registry cls chatbot kwargs = Return self ->
     LogicAdapter.excluded_words self
     = match kwargs !! "excluded_words" with
       | Some v => v
       | None => VNone
       end) /\
  (forall v,
     LogicAdapter.__init__ registry cls chatbot (<["excluded_words" := v]> kwargs)
     = match LogicAdapter.__init__ registry cls chatbot kwargs with
       | Return self =>
           Return {|
             LogicAdapter.class__name__ := LogicAdapter.class__name__ self;
             LogicAdapter.chatbot := LogicAdapter.chatbot self;
             LogicAdapter.maximum_similarity_threshold :=
               LogicAdapter.maximum_similarity_threshold self;
             LogicAdapter.excluded_words := v;
             LogicAdapter.search_page_size := LogicAdapter.search_page_size self;
             LogicAdapter.compare_statements := LogicAdapter.compare_statements self;
             LogicAdapter.select_response := LogicAdapter.select_response self
           |}
       | Raise e => Raise e
       end).
Proof.
  split.
  - intros self (kw & Hkw & _ & -> & _)%init_other_key.
    unfold dict_get. rewrite Hkw by discriminate.
    destruct (kwargs !! "excluded_words"); reflexivity.
  - intros v. unfold LogicAdapter.__init__, Adapter.__init__. simpl.
    rewrite import_string_parameter_insert by discriminate.
    destruct (LogicAdapter.import_string_parameter registry
                "statement_comparison_function" kwargs) as [kwargs1|e1];
      simpl; [| reflexivity].
    rewrite import_string_parameter_insert by discriminate.
    destruct (LogicAdapter.import_string_parameter registry
                "response_selection_method" kwargs1) as [kwargs2|e2];
      simpl; [| reflexivity].
    unfold dict_get.
    rewrite lookup_insert_eq.
    rewrite !lookup_insert_ne by discriminate. reflexivity.
Qed.

Lemma C10_excluded_words_stored_as_given_witness :
  let kwargs1 : gmap string Value := {[ "excluded_words" := VRef 7%positive ]} in
  let kwargs2 : gmap string Value := {[ "excluded_words" := VInt 42 ]} in
  (exists self, LogicAdapter.__init__ ∅ "BestMatch" VNone kwargs1 = Return self /\
                LogicAdapter.excluded_words self = VRef 7%positive) /\
  (exists self, LogicAdapter.__init__ ∅ "BestMatch" VNone kwargs2 = Return self /\
                LogicAdapter.excluded_words self = VInt 42).
Proof.
  intros kwargs1 kwargs2. split.
  - eexists. split; [reflexivity |].
    apply (proj1 (C10_excluded_words_stored_as_given ∅ "BestMatch" VNone kwargs1)).
    reflexivity.
  - eexists. split; [reflexivity |].
    apply (proj1 (C10_excluded_words_stored_as_given ∅ "BestMatch" VNone kwargs2)).
    reflexivity.
Defined.

(** C7, as the data model states it, fails: the constructor stores a
    threshold outside [0, 1], and a page size that is not positive, as they
    are supplied. *)
Lemma C7_invariant_counterexample :
  (exists self,
     LogicAdapter.__init__ ∅ "BestMatch" VNone
       {[ "maximum_similarity_threshold" := VFloat (3 # 2) ]} = Return self /\
     LogicAdapter.maximum_similarity_threshold self = VFloat (3 # 2) /\
     LogicAdapter.config_invariant self = false) /\
  (exists self,
     LogicAdapter.__init__ ∅ "BestMatch" VNone
       {[ "search_page_size" := VInt 0 ]} = Return self /\
     LogicAdapter.search_page_size self = VInt 0 /\
     LogicAdapter.config_invariant self = false).
Proof.
  split; eexists; (split; [reflexivity |]); split; reflexivity.
Qed.

(** C7, amended: the constructor validates nothing. It stores the threshold
    and the page size as supplied, and 0.95 and 1000 when they are omitted,
    so the invariant holds after construction exactly when it holds of
    those values, and it holds when both options are omitted. None of the
    operations of the base contract changes the stored configuration. *)
Theorem C7_invariant_holds_when_supplied_values_satisfy_it
    (registry : gmap string Value) (cls : string) (chatbot : Value)
    (kwargs : gmap string Value) (self : LogicAdapter.t) :
  LogicAdapter.__init__ registry cls chatbot kwargs = Return self ->
  LogicAdapter.maximum_similarity_threshold self
    = dict_get kwargs "maximum_similarity_threshold" (VFloat (95 # 100)) /\
  LogicAdapter.search_page_size self
    = dict_get kwargs "search_page_size" (VInt 1000) /\
  LogicAdapter.config_invariant self
    = LogicAdapter.threshold_in_range
        (dict_get kwargs "maximum_similarity_threshold" (VFloat (95 # 100)))
      && LogicAdapter.page_size_positive
           (dict_get kwargs "search_page_size" (VInt 1000)) /\
  (kwargs !! "maximum_similarity_threshold" = None ->
   kwargs !! "search_page_size" = None ->
   LogicAdapter.config_invariant self = true) /\
  (forall statement,
     snd (LogicAdapter.can_process self statement) = self /\
     snd (LogicAdapter.process self statement) = self) /\
  snd (LogicAdapter.class_name self) = self.
Proof.
  intros (kw & Hkw & Ht & _ & Hp)%init_other_key.
  assert (Ht' : LogicAdapter.maximum_similarity_threshold self
                = dict_get kwargs "maximum_similarity_threshold" (VFloat (95 # 100))).
  { rewrite Ht. unfold dict_get. rewrite Hkw by discriminate. reflexivity. }
  assert (Hp' : LogicAdapter.search_page_size self
                = dict_get kwargs "search_page_size" (VInt 1000)).
  { rewrite Hp. unfold dict_get. rewrite Hkw by discriminate. reflexivity. }
  unfold LogicAdapter.config_invariant. rewrite Ht', Hp'.
  repeat apply conj; try reflexivity.
  - intros H1 H2. unfold dict_get. rewrite H1, H2. reflexivity.
  - intros statement. split; reflexivity.
Qed.

Lemma C7_invariant_holds_when_supplied_values_satisfy_it_witness :
  let kwargs : gmap string Value :=
    {[ "maximum_similarity_threshold" := VFloat (9 # 10) ]} in
  let self :=
    LogicAdapter.mk "BestMatch" VNone (VFloat (9 # 10)) VNone (VInt 1000)
                    levenshtein_distance get_first_response in
  LogicAdapter.__init__ ∅ "BestMatch" VNone kwargs = Return self /\
  LogicAdapter.config_invariant self = true.
Proof.
  intros kwargs self.
  assert (Hinit : LogicAdapter.__init__ ∅ "BestMatch" VNone kwargs = Return self)
    by reflexivity.
  split; [exact Hinit |].
  destruct (C7_invariant_holds_when_supplied_values_satisfy_it
              ∅ "BestMatch" VNone kwargs self Hinit) as (_ & _ & H & _).
  rewrite H. reflexivity.
Defined.

(** ** The exclusion filter *)

Lemma rejects_absent txt : ExclusionFilter.rejects None txt = false.
Proof. reflexivity. Qed.

Lemma rejects_empty txt : ExclusionFilter.rejects (Some []) txt = false.
Proof.
  unfold ExclusionFilter.rejects.
  induction (ExclusionFilter.tokens (ExclusionFilter.lower txt)) as [|tok l IH];
    [reflexivity | exact IH].
Qed.

Example rejects_whole_words_only :
  ExclusionFilter.rejects (Some ["ass"]) "A good class, indeed" = false.
Proof. reflexivity. Qed.

Example rejects_whatever_the_case :
  ExclusionFilter.rejects (Some ["Damn"]) "Well, DAMN it" = true.
Proof. reflexivity. Qed.

(** ** The best-match search *)

Section SearchProperties.

Import MatchSearch.

Variable input : Statement.
Variable score_fn : Statement -> Statement -> Q.
Variable exclusion : option (list string).
Variable threshold : Q.

Local Abbreviation adm := (admissible exclusion).
Local Abbreviation score := (score_fn input).
Local Abbreviation reached := (MatchSearch.reached threshold).
Local Abbreviation update_best := MatchSearch.update_best.
Local Abbreviation best_after := (MatchSearch.best_after input score_fn).
Local Abbreviation visit := (MatchSearch.visit input score_fn exclusion threshold).
Local Abbreviation scan_page := (MatchSearch.scan_page input score_fn exclusion threshold).
Local Abbreviation scan_pages := (MatchSearch.scan_pages input score_fn exclusion threshold).
Local Abbreviation clean := (MatchSearch.clean exclusion).

(** *** One statement *)

Lemma visit_rejected st s :
  ExclusionFilter.rejects exclusion (text s) = true -> visit st s = st.
Proof. unfold MatchSearch.visit. intros ->. reflexivity. Qed.

Lemma visit_admissible st s :
  adm s = true ->
  visit st s =
    {| best := update_best (best st) s (score s);
       scored := scored st ++ [s];
       pages_fetched := pages_fetched st;
       halted := reached (update_best (best st) s (score s)) |}.
Proof.
  unfold admissible, MatchSearch.visit. intros Ha.
  apply negb_true_iff in Ha. rewrite Ha. reflexivity.
Qed.

Lemma reached_update_below b s sc :
  reached b = false -> (sc < threshold)%Q ->
  reached (update_best b s sc) = false.
Proof.
  intros Hb Hsc. apply Qle_bool_false_iff in Hsc.
  destruct b as [[c bs]|]; simpl; [| exact Hsc].
  destruct (Qlt_bool bs sc); simpl; [exact Hsc | exact Hb].
Qed.

Lemma update_best_hit b s sc :
  reached b = false -> (threshold <= sc)%Q ->
  update_best b s sc = Some (s, sc) /\ reached (Some (s, sc)) = true.
Proof.
  intros Hb Hsc. split; [| simpl; apply Qle_bool_iff; exact Hsc].
  destruct b as [[c bs]|]; simpl; [| reflexivity].
  simpl in Hb. apply Qle_bool_false_iff in Hb.
  assert (Hlt : Qlt_bool bs sc = true).
  { apply Qlt_bool_iff. eapply Qlt_le_trans; eassumption. }
  rewrite Hlt. reflexivity.
Qed.

(** *** The running best of an exhaustive scan *)

Lemma best_after_cons b s l :
  best_after b (s :: l) = best_after (update_best b s (score s)) l.
Proof. reflexivity. Qed.

Lemma best_after_spec l : forall b,
  match best_after b l with
  | None => b = None /\ l = []
  | Some (c, sc) =>
      (b = Some (c, sc) \/ (In c l /\ sc = score c)) /\
      (forall x, In x l -> (score x <= sc)%Q) /\
      (forall c0 s0, b = Some (c0, s0) -> (s0 <= sc)%Q)
  end.
Proof.
  induction l as [|s l IH]; intros b.
  - simpl. destruct b as [[c sc]|]; [| auto].
    split; [auto |]. split; [intros x [] |].
    intros c0 s0 [= <- <-]. apply Qle_refl.
  - rewrite best_after_cons.
    specialize (IH (update_best b s (score s))).
    destruct (best_after (update_best b s (score s)) l) as [[c sc]|].
    + destruct IH as (Hc & Hmax & Hge).
      destruct b as [[c0 bs]|]; simpl in *.
      * destruct (Qlt_bool bs (score s)) eqn:Hlt.
        -- apply Qlt_bool_iff in Hlt.
           pose proof (Hge s (score s) eq_refl) as Hs.
           split; [| split].
           ++ destruct Hc as [[= <- <-] | [Hin ->]]; right; auto.
           ++ intros x [<- | Hin]; auto.
           ++ intros c1 s1 [= <- <-].
              apply Qlt_le_weak. eapply Qlt_le_trans; eassumption.
        -- apply Qlt_bool_false_iff in Hlt.
           pose proof (Hge c0 bs eq_refl) as Hs.
           split; [| split].
           ++ destruct Hc as [Hc | [Hin ->]]; [left | right]; auto.
           ++ intros x [<- | Hin]; [eapply Qle_trans; eassumption | auto].
           ++ exact Hge.
      * pose proof (Hge s (score s) eq_refl) as Hs.
        split; [| split].
        -- destruct Hc as [[= <- <-] | [Hin ->]]; right; auto.
        -- intros x [<- | Hin]; auto.
        -- discriminate.
    + destruct IH as [Hnone _].
      destruct b as [[c0 bs]|]; simpl in Hnone;
        [destruct (Qlt_bool bs (score s)) |]; discriminate.
Qed.

Lemma reached_best_after_below l : forall b,
  reached b = false ->
  (forall x, In x l -> (score x < threshold)%Q) ->
  reached (best_after b l) = false.
Proof.
  induction l as [|s l IH]; intros b Hb Hl; [exact Hb |].
  rewrite best_after_cons. apply IH.
  - apply reached_update_below; [exact Hb | apply Hl; left; reflexivity].
  - intros x Hx. apply Hl. right. exact Hx.
Qed.

(** *** One page *)

Lemma scan_page_below page : forall st,
  halted st = false -> reached (best st) = false ->
  (forall x, In x page -> adm x = true -> (score x < threshold)%Q) ->
  scan_page st page =
    {| best := best_after (best st) (List.filter adm page);
       scored := scored st ++ List.filter adm page;
       pages_fetched := pages_fetched st;
       halted := false |}.
Proof.
  induction page as [|s page IH]; intros st Hh Hb Hlt.
  - simpl. rewrite app_nil_r. destruct st; simpl in *. congruence.
  - simpl. destruct (adm s) eqn:Ha.
    + rewrite (visit_admissible st s Ha). simpl.
      assert (Hs : reached (update_best (best st) s (score s)) = false).
      { apply reached_update_below; [exact Hb |]. apply Hlt; [left |]; auto. }
      rewrite Hs, IH; simpl; auto.
      * rewrite <- app_assoc. reflexivity.
      * intros x Hx. apply Hlt. right. exact Hx.
    + rewrite (visit_rejected st s), Hh by (apply negb_false_iff; exact Ha).
      apply IH; auto. intros x Hx. apply Hlt. right. exact Hx.
Qed.

Lemma scan_page_hit before s after : forall st,
  halted st = false -> reached (best st) = false ->
  adm s = true -> (threshold <= score s)%Q ->
  (forall x, In x before -> adm x = true -> (score x < threshold)%Q) ->
  scan_page st (before ++ s :: after) =
    {| best := Some (s, score s);
       scored := scored st ++ List.filter adm before ++ [s];
       pages_fetched := pages_fetched st;
       halted := true |}.
Proof.
  induction before as [|x before IH]; intros st Hh Hb Ha Hs Hlt.
  - simpl. rewrite (visit_admissible st s Ha). simpl.
    destruct (update_best_hit (best st) s (score s) Hb Hs) as [-> Hr].
    rewrite Hr. reflexivity.
  - simpl. destruct (adm x) eqn:Hx.
    + rewrite (visit_admissible st x Hx). simpl.
      assert (Hx' : reached (update_best (best st) x (score x)) = false).
      { apply reached_update_below; [exact Hb |]. apply Hlt; [left |]; auto. }
      rewrite Hx', IH; simpl; auto.
      * rewrite <- app_assoc. reflexivity.
      * intros y Hy. apply Hlt. right. exact Hy.
    + rewrite (visit_rejected st x), Hh by (apply negb_false_iff; exact Hx).
      apply IH; auto. intros y Hy. apply Hlt. right. exact Hy.
Qed.

(** A page is scanned as the page without its rejected statements is. *)
Lemma scan_page_filter page : forall st,
  halted st = false ->
  scan_page st page = scan_page st (List.filter adm page) /\
  (halted (scan_page st page) = false \/ reached (best (scan_page st page)) = true).
Proof.
  induction page as [|s page IH]; intros st Hh.
  - simpl. auto.
  - simpl. destruct (adm s) eqn:Ha.
    + simpl. rewrite (visit_admissible st s Ha). simpl.
      destruct (reached (update_best (best st) s (score s))) eqn:Hr.
      * simpl. auto.
      * apply IH. reflexivity.
    + rewrite (visit_rejected st s), Hh by (apply negb_false_iff; exact Ha).
      apply IH. exact Hh.
Qed.

(** *** The pages *)

Lemma filter_concat_below (pages : list (list Statement)) page :
  (forall x, In x (concat (page :: pages)) -> adm x = true -> (score x < threshold)%Q) ->
  (forall x, In x page -> adm x = true -> (score x < threshold)%Q) /\
  (forall x, In x (concat pages) -> adm x = true -> (score x < threshold)%Q).
Proof.
  simpl. intros H. split; intros x Hx; apply H; apply in_app_iff; auto.
Qed.

Lemma below_filtered page :
  (forall x, In x page -> adm x = true -> (score x < threshold)%Q) ->
  forall x, In x (List.filter adm page) -> (score x < threshold)%Q.
Proof. intros H x [Hx Ha]%filter_In. auto. Qed.

Lemma scan_pages_below pages : forall st,
  halted st = false -> reached (best st) = false ->
  (forall x, In x (concat pages) -> adm x = true -> (score x < threshold)%Q) ->
  scan_pages st pages =
    {| best := best_after (best st) (List.filter adm (concat pages));
       scored := scored st ++ List.filter adm (concat pages);
       pages_fetched := pages_fetched st + length pages;
       halted := false |}.
Proof.
  induction pages as [|page pages IH]; intros st Hh Hb Hlt.
  - simpl. rewrite app_nil_r, Nat.add_0_r. destruct st; simpl in *. congruence.
  - destruct (filter_concat_below _ _ Hlt) as [Hpage Hrest].
    simpl. rewrite (scan_page_below page (fetch st)); auto. simpl.
    rewrite IH; simpl; auto.
    + rewrite List.filter_app. unfold MatchSearch.best_after.
      rewrite List.fold_left_app, <- app_assoc, Nat.add_succ_r. reflexivity.
    + apply reached_best_after_below; [exact Hb |].
      apply below_filtered. exact Hpage.
Qed.

Lemma scan_pages_hit before page_before s page_after after : forall st,
  halted st = false -> reached (best st) = false ->
  adm s = true -> (threshold <= score s)%Q ->
  (forall x, In x (concat before ++ page_before) -> adm x = true ->
             (score x < threshold)%Q) ->
  scan_pages st (before ++ (page_before ++ s :: page_after) :: after) =
    {| best := Some (s, score s);
       scored := scored st ++ List.filter adm (concat before ++ page_before) ++ [s];
       pages_fetched := pages_fetched st + S (length before);
       halted := true |}.
Proof.
  induction before as [|page before IH]; intros st Hh Hb Ha Hs Hlt.
  - simpl. rewrite (scan_page_hit page_before s page_after (fetch st)); auto.
    simpl. rewrite Nat.add_1_r. reflexivity.
  - assert (Hpage : forall x, In x page -> adm x = true -> (score x < threshold)%Q).
    { intros x Hx. apply Hlt. simpl. rewrite <- app_assoc. apply in_app_iff. auto. }
    assert (Hrest : forall x, In x (concat before ++ page_before) -> adm x = true ->
                              (score x < threshold)%Q).
    { intros x Hx. apply Hlt. simpl. rewrite <- app_assoc. apply in_app_iff. auto. }
    simpl. rewrite (scan_page_below page (fetch st)); auto. simpl.
    rewrite IH; simpl; auto.
    + rewrite <- (app_assoc page), (List.filter_app adm page), <- !app_assoc.
      f_equal. lia.
    + apply reached_best_after_below; [exact Hb |].
      apply below_filtered. exact Hpage.
Qed.

Lemma scan_pages_filter pages : forall st,
  halted st = false ->
  scan_pages st pages = scan_pages st (map (List.filter adm) pages) /\
  (halted (scan_pages st pages) = false \/
   reached (best (scan_pages st pages)) = true).
Proof.
  induction pages as [|page pages IH]; intros st Hh.
  - simpl. auto.
  - simpl. destruct (scan_page_filter page (fetch st) Hh) as [<- Hor].
    destruct (halted (scan_page (fetch st) page)) eqn:Hp.
    + split; [reflexivity |]. destruct Hor as [Hor | Hor]; [discriminate | auto].
    + apply IH. exact Hp.
Qed.

(** *** What the search never holds *)

Lemma visit_clean st s : clean st -> clean (visit st s).
Proof.
  intros [Hb Hs]. destruct (adm s) eqn:Ha.
  - rewrite (visit_admissible st s Ha). split; simpl.
    + destruct (best st) as [[b bs]|]; simpl; [| exact Ha].
      destruct (Qlt_bool bs (score s)); [exact Ha | exact Hb].
    + apply Forall_app. split; [exact Hs |]. constructor; [exact Ha | constructor].
  - rewrite (visit_rejected st s) by (apply negb_false_iff; exact Ha).
    split; assumption.
Qed.

Lemma scan_page_clean page : forall st, clean st -> clean (scan_page st page).
Proof.
  induction page as [|s page IH]; intros st Hst; [exact Hst |].
  simpl. pose proof (visit_clean st s Hst) as Hv.
  destruct (halted (visit st s)); [exact Hv | apply IH; exact Hv].
Qed.

Lemma scan_pages_clean pages : forall st, clean st -> clean (scan_pages st pages).
Proof.
  induction pages as [|page pages IH]; intros st Hst; [exact Hst |].
  simpl. assert (Hp : clean (scan_page (fetch st) page)).
  { apply scan_page_clean. exact Hst. }
  destruct (halted (scan_page (fetch st) page)); [exact Hp | apply IH; exact Hp].
Qed.

End SearchProperties.

(** C1: the search halts at the first admissible statement whose score is
    greater than or equal to the threshold (a score equal to the threshold
    halts it): that statement is the result, nothing after it is scored and
    no later page is fetched. When no admissible statement reaches the
    threshold the whole corpus is scanned and the result is an admissible
    statement of maximal score, or no candidate when none is admissible. *)
Theorem C1_search_halts_at_threshold
    (input : Statement) (score_fn : Statement -> Statement -> Q)
    (exclusion : option (list string)) (threshold : Q)
    (corpus_pages : list (list Statement)) :
  let adm := MatchSearch.admissible exclusion in
  let score := score_fn input in
  let r := MatchSearch.run input score_fn exclusion threshold corpus_pages in
  (forall before page_before s page_after after,
     corpus_pages = before ++ (page_before ++ s :: page_after) :: after ->
     adm s = true ->
     (threshold <= score s)%Q ->
     (forall x, In x (concat before ++ page_before) -> adm x = true ->
                (score x < threshold)%Q) ->
     r = {| MatchSearch.best := Some (s, score s);
            MatchSearch.scored :=
              List.filter adm (concat before ++ page_before) ++ [s];
            MatchSearch.pages_fetched := S (length before);
            MatchSearch.halted := true |}) /\
  ((forall x, In x (concat corpus_pages) -> adm x = true ->
              (score x < threshold)%Q) ->
   MatchSearch.halted r = false /\
   MatchSearch.scored r = List.filter adm (concat corpus_pages) /\
   MatchSearch.pages_fetched r = length corpus_pages /\
   match MatchSearch.search input score_fn exclusion threshold corpus_pages with
   | Some (b, sc) =>
       In b (concat corpus_pages) /\ adm b = true /\ sc = score b /\
       forall x, In x (concat corpus_pages) -> adm x = true -> (score x <= sc)%Q
   | None => forall x, In x (concat corpus_pages) -> adm x = false
   end).
Proof.
  intros adm score r. split.
  - intros before page_before s page_after after -> Ha Hs Hlt.
    unfold r, MatchSearch.run.
    rewrite (scan_pages_hit input score_fn exclusion threshold
               before page_before s page_after after MatchSearch.initial);
      auto.
  - intros Hlt. unfold MatchSearch.search. fold r.
    assert (Hr : r = {| MatchSearch.best :=
                          MatchSearch.best_after input score_fn None
                            (List.filter adm (concat corpus_pages));
                        MatchSearch.scored := List.filter adm (concat corpus_pages);
                        MatchSearch.pages_fetched := length corpus_pages;
                        MatchSearch.halted := false |}).
    { unfold r, MatchSearch.run.
      rewrite (scan_pages_below input score_fn exclusion threshold
                 corpus_pages MatchSearch.initial); auto. }
    rewrite Hr. simpl. repeat apply conj; try reflexivity.
    pose proof (best_after_spec input score_fn
                  (List.filter adm (concat corpus_pages)) None) as Hspec.
    destruct (MatchSearch.best_after input score_fn None
                (List.filter adm (concat corpus_pages))) as [[b sc]|].
    + destruct Hspec as ([Hb | [Hin ->]] & Hmax & _); [discriminate |].
      apply filter_In in Hin as [Hin Hab].
      repeat apply conj; auto.
      intros x Hx Hax. apply Hmax. apply filter_In. auto.
    + destruct Hspec as [_ Hnil]. intros x Hx.
      destruct (adm x) eqn:Hax; [| reflexivity].
      assert (Hin : In x (List.filter adm (concat corpus_pages)))
        by (apply filter_In; auto).
      rewrite Hnil in Hin. destruct Hin.
Qed.

Lemma C1_search_halts_at_threshold_witness :
  let hi := {| text := "hi"; metadata := [] |} in
  let hello := {| text := "hello"; metadata := [] |} in
  let howdy := {| text := "howdy"; metadata := [] |} in
  let score_fn := fun (_ s : Statement) =>
    if String.eqb (text s) "hello" then 99 # 100
    else if String.eqb (text s) "hi" then 1 # 5 else 1%Q in
  MatchSearch.run hello score_fn None (99 # 100) [[hi; hello; howdy]; [howdy]]
  = {| MatchSearch.best := Some (hello, 99 # 100);
       MatchSearch.scored := [hi; hello];
       MatchSearch.pages_fetched := 1;
       MatchSearch.halted := true |}.
Proof.
  intros hi hello howdy score_fn.
  apply (proj1 (C1_search_halts_at_threshold hello score_fn None (99 # 100)
                  [[hi; hello; howdy]; [howdy]])
           [] [hi] hello [howdy] [[howdy]]).
  - reflexivity.
  - reflexivity.
  - apply Qle_bool_iff. reflexivity.
  - intros x [<- | []] _. reflexivity.
Defined.

(** C6: whatever the exclusion set, the corpus and the input, the result of
    the search is not a statement the exclusion filter rejects; no rejected
    statement is ever scored; visiting a rejected statement leaves the
    search as it was, so that the search runs exactly as on the corpus
    without its rejected statements; and when the search halts early, it
    halts on an admissible running best whose score reached the
    threshold. *)
Theorem C6_rejected_statements_never_returned
    (input : Statement) (score_fn : Statement -> Statement -> Q)
    (exclusion : option (list string)) (threshold : Q)
    (corpus_pages : list (list Statement)) :
  let r := MatchSearch.run input score_fn exclusion threshold corpus_pages in
  match MatchSearch.search input score_fn exclusion threshold corpus_pages with
  | Some (b, _) => ExclusionFilter.rejects exclusion (text b) = false
  | None => True
  end /\
  Forall (fun s => ExclusionFilter.rejects exclusion (text s) = false)
         (MatchSearch.scored r) /\
  (forall st s,
     ExclusionFilter.rejects exclusion (text s) = true ->
     MatchSearch.visit input score_fn exclusion threshold st s = st) /\
  r = MatchSearch.run input score_fn exclusion threshold
        (map (List.filter (MatchSearch.admissible exclusion)) corpus_pages) /\
  (MatchSearch.halted r = true ->
   exists b sc,
     MatchSearch.best r = Some (b, sc) /\
     ExclusionFilter.rejects exclusion (text b) = false /\
     (threshold <= sc)%Q).
Proof.
  intros r.
  assert (Hclean : MatchSearch.clean exclusion r).
  { apply scan_pages_clean. split; [exact I | constructor]. }
  destruct Hclean as [Hbest Hscored].
  destruct (scan_pages_filter input score_fn exclusion threshold corpus_pages
              MatchSearch.initial eq_refl) as [Hfilter Hhalt].
  change (MatchSearch.scan_pages input score_fn exclusion threshold
            MatchSearch.initial corpus_pages) with r in Hfilter, Hhalt.
  repeat apply conj.
  - unfold MatchSearch.search. fold r.
    destruct (MatchSearch.best r) as [[b sc]|]; [| exact I].
    apply negb_true_iff. exact Hbest.
  - eapply List.Forall_impl; [| exact Hscored].
    intros s Hs. apply negb_true_iff. exact Hs.
  - intros st s Hs. apply visit_rejected. exact Hs.
  - exact Hfilter.
  - intros Hh. destruct Hhalt as [Hhalt | Hhalt]; [congruence |].
    destruct (MatchSearch.best r) as [[b sc]|]; simpl in Hhalt; [| discriminate].
    exists b, sc. repeat apply conj; [reflexivity | |].
    + apply negb_true_iff. exact Hbest.
    + apply Qle_bool_iff. exact Hhalt.
Qed.

Lemma C6_rejected_statements_never_returned_witness :
  let perfect := {| text := "Damn right"; metadata := [] |} in
  let other := {| text := "right"; metadata := [] |} in
  let score_fn := fun (_ s : Statement) =>
    if String.eqb (text s) "Damn right" then 1%Q else 1 # 2 in
  let r := MatchSearch.run perfect score_fn (Some ["damn"]) (95 # 100)
             [[perfect; other]] in
  ExclusionFilter.rejects (Some ["damn"]) (text perfect) = true /\
  MatchSearch.best r = Some (other, 1 # 2) /\
  MatchSearch.halted r = false /\
  Forall (fun s => ExclusionFilter.rejects (Some ["damn"]) (text s) = false)
         (MatchSearch.scored r).
Proof.
  intros perfect other score_fn r.
  repeat apply conj; try reflexivity.
  exact (proj1 (proj2 (C6_rejected_statements_never_returned
                         perfect score_fn (Some ["damn"]) (95 # 100)
                         [[perfect; other]]))).
Defined.

(** ** Further properties of the constructor *)

(** Setting an option that is not one of the two strategy options changes
    at most the attribute that is read from it. *)
Lemma init_insert_plain_option registry cls chatbot (kwargs : gmap string Value) k v :
  k <> "statement_comparison_function" ->
  k <> "response_selection_method" ->
  LogicAdapter.__init__ registry cls chatbot (<[k := v]> kwargs)
  = match LogicAdapter.__init__ registry cls chatbot kwargs with
    | Return self =>
        Return {|
          LogicAdapter.class__name__ := LogicAdapter.class__name__ self;
          LogicAdapter.chatbot := LogicAdapter.chatbot self;
          LogicAdapter.maximum_similarity_threshold :=
            if String.eqb k "maximum_similarity_threshold" then v
            else LogicAdapter.maximum_similarity_threshold self;
          LogicAdapter.excluded_words :=
            if String.eqb k "excluded_words" then v
            else LogicAdapter.excluded_words self;
          LogicAdapter.search_page_size :=
            if String.eqb k "search_page_size" then v
            else LogicAdapter.search_page_size self;
          LogicAdapter.compare_statements := LogicAdapter.compare_statements self;
          LogicAdapter.select_response := LogicAdapter.select_response self
        |}
    | Raise e => Raise e
    end.
Proof.
  intros Hc Hs. unfold LogicAdapter.__init__, Adapter.__init__. simpl.
  rewrite import_string_parameter_insert by exact Hc.
  destruct (LogicAdapter.import_string_parameter registry
              "statement_comparison_function" kwargs) as [kwargs1|e1];
    simpl; [| reflexivity].
  rewrite import_string_parameter_insert by exact Hs.
  destruct (LogicAdapter.import_string_parameter registry
              "response_selection_method" kwargs1) as [kwargs2|e2];
    simpl; [| reflexivity].
  unfold dict_get.
  rewrite (lookup_insert_ne kwargs2 k "statement_comparison_function") by exact Hc.
  rewrite (lookup_insert_ne kwargs2 k "response_selection_method") by exact Hs.
  do 2 f_equal.
  - destruct (String.eqb_spec k "maximum_similarity_threshold") as [-> | Hne].
    + rewrite lookup_insert_eq. reflexivity.
    + rewrite lookup_insert_ne by exact Hne. reflexivity.
  - destruct (String.eqb_spec k "excluded_words") as [-> | Hne].
    + rewrite lookup_insert_eq. reflexivity.
    + rewrite lookup_insert_ne by exact Hne. reflexivity.
  - destruct (String.eqb_spec k "search_page_size") as [-> | Hne].
    + rewrite lookup_insert_eq. reflexivity.
    + rewrite lookup_insert_ne by exact Hne. reflexivity.
Qed.

(** With no string under either strategy option nothing is resolved: the
    constructor returns, and every attribute is read from the keyword
    arguments as they were passed. *)
Lemma init_no_resolution registry cls chatbot (kwargs : gmap string Value) :
  (forall path, kwargs !! "statement_comparison_function" <> Some (VStr path)) ->
  (forall path, kwargs !! "response_selection_method" <> Some (VStr path)) ->
  LogicAdapter.__init__ registry cls chatbot kwargs
  = Return {|
      LogicAdapter.class__name__ := cls;
      LogicAdapter.chatbot := chatbot;
      LogicAdapter.maximum_similarity_threshold :=
        dict_get kwargs "maximum_similarity_threshold" (VFloat (95 # 100));
      LogicAdapter.excluded_words := dict_get kwargs "excluded_words" VNone;
      LogicAdapter.search_page_size := dict_get kwargs "search_page_size" (VInt 1000);
      LogicAdapter.compare_statements :=
        dict_get kwargs "statement_comparison_function" levenshtein_distance;
      LogicAdapter.select_response :=
        dict_get kwargs "response_selection_method" get_first_response
    |}.
Proof.
  intros Hc Hs.
  assert (Hkeep : forall key,
            (forall path, kwargs !! key <> Some (VStr path)) ->
            LogicAdapter.import_string_parameter registry key kwargs = Return kwargs).
  { intros key Hkey. unfold LogicAdapter.import_string_parameter.
    destruct (kwargs !! key) as [w|] eqn:Hw; [| reflexivity].
    destruct w; try reflexivity. destruct (Hkey s). reflexivity. }
  unfold LogicAdapter.__init__, Adapter.__init__. simpl.
  rewrite (Hkeep _ Hc). simpl. rewrite (Hkeep _ Hs). reflexivity.
Qed.



(** X2: when neither strategy option holds a string, the constructor
    resolves nothing: it returns, whatever can or cannot be imported, and
    the adapter it returns does not depend on what can be imported. *)
Theorem X2_no_string_no_resolution
    (cls : string) (chatbot : Value) (kwargs : gmap string Value) :
  (forall path, kwargs !! "statement_comparison_function" <> Some (VStr path)) ->
  (forall path, kwargs !! "response_selection_method" <> Some (VStr path)) ->
  exists self,
    forall registry, LogicAdapter.__init__ registry cls chatbot kwargs = Return self.
Proof.
  intros Hc Hs. eexists. intros registry.
  apply init_no_resolution; assumption.
Qed.

Lemma X2_no_string_no_resolution_witness :
  let kwargs : gmap string Value :=
    {[ "response_selection_method" := VCallable "my_app.pick" ]} in
  exists self,
    forall registry, LogicAdapter.__init__ registry "BestMatch" VNone kwargs = Return self.
Proof.
  intros kwargs.
  apply X2_no_string_no_resolution.
  - intros path. unfold kwargs.
    rewrite lookup_singleton_ne by discriminate. discriminate.
  - intros path. unfold kwargs. rewrite lookup_singleton_eq. discriminate.
Defined.

(** X3: supplying a strategy as an identifier is the same as supplying the
    function the identifier resolves to, as long as that function is not
    itself a string. *)
Theorem X3_identifier_equals_resolved_function
    (registry : gmap string Value) (cls : string) (chatbot : Value)
    (kwargs : gmap string Value) (key path : string) (f : Value) :
  key = "statement_comparison_function" \/ key = "response_selection_method" ->
  kwargs !! key = Some (VStr path) ->
  import_module registry path = Return f ->
  isinstance_str f = false ->
  LogicAdapter.__init__ registry cls chatbot kwargs
  = LogicAdapter.__init__ registry cls chatbot (<[key := f]> kwargs).
Proof.
  intros Hkey Hk Hf Hns.
  assert (Hres : forall kw : gmap string Value,
            kw !! key = Some (VStr path) ->
            LogicAdapter.import_string_parameter registry key kw
            = Return (<[key := f]> kw)).
  { intros kw Hkw. unfold LogicAdapter.import_string_parameter.
    rewrite Hkw, Hf. reflexivity. }
  assert (Hkeep : forall kw : gmap string Value,
            LogicAdapter.import_string_parameter registry key (<[key := f]> kw)
            = Return (<[key := f]> kw)).
  { intros kw. apply (import_string_parameter_not_str registry key _ f);
      [apply lookup_insert_eq | exact Hns]. }
  unfold LogicAdapter.__init__, Adapter.__init__. simpl.
  destruct Hkey as [-> | ->].
  - rewrite (Hres kwargs Hk), (Hkeep kwargs). reflexivity.
  - rewrite (import_string_parameter_insert registry
               "statement_comparison_function" "response_selection_method")
      by discriminate.
    destruct (LogicAdapter.import_string_parameter registry
                "statement_comparison_function" kwargs) as [kwargs1|e1] eqn:H1;
      simpl; [| reflexivity].
    apply import_string_parameter_returns in H1 as [H1 _].
    rewrite (Hres kwargs1), (Hkeep kwargs1); [reflexivity |].
    rewrite H1 by discriminate. exact Hk.
Qed.

Lemma X3_identifier_equals_resolved_function_witness :
  let registry : gmap string Value :=
    {[ "my_app.compare" := VCallable "my_app.compare" ]} in
  LogicAdapter.__init__ registry "BestMatch" VNone
    {[ "statement_comparison_function" := VStr "my_app.compare" ]}
  = LogicAdapter.__init__ registry "BestMatch" VNone
      (<["statement_comparison_function" := VCallable "my_app.compare"]>
         {[ "statement_comparison_function" := VStr "my_app.compare" ]}).
Proof.
  intros registry.
  apply (X3_identifier_equals_resolved_function registry "BestMatch" VNone
           {[ "statement_comparison_function" := VStr "my_app.compare" ]}
           "statement_comparison_function" "my_app.compare"
           (VCallable "my_app.compare")).
  - left. reflexivity.
  - reflexivity.
  - reflexivity.
  - reflexivity.
Defined.

(** X4: the constructor accepts any value for
    [maximum_similarity_threshold] and for [search_page_size]: supplying
    one changes nothing else in the outcome of the construction, which
    fails exactly when it failed without, with the same exception, and
    otherwise yields the same adapter with that value as the attribute. *)
Theorem X4_threshold_and_page_size_are_not_validated
    (registry : gmap string Value) (cls : string) (chatbot : Value)
    (kwargs : gmap string Value) (v : Value) :
  LogicAdapter.__init__ registry cls chatbot
    (<["maximum_similarity_threshold" := v]> kwargs)
  = match LogicAdapter.__init__ registry cls chatbot kwargs with
    | Return self =>
        Return {|
          LogicAdapter.class__name__ := LogicAdapter.class__name__ self;
          LogicAdapter.chatbot := LogicAdapter.chatbot self;
          LogicAdapter.maximum_similarity_threshold := v;
          LogicAdapter.excluded_words := LogicAdapter.excluded_words self;
          LogicAdapter.search_page_size := LogicAdapter.search_page_size self;
          LogicAdapter.compare_statements := LogicAdapter.compare_statements self;
          LogicAdapter.select_response := LogicAdapter.select_response self
        |}
    | Raise e => Raise e
    end /\
  LogicAdapter.__init__ registry cls chatbot (<["search_page_size" := v]> kwargs)
  = match LogicAdapter.__init__ registry cls chatbot kwargs with
    | Return self =>
        Return {|
          LogicAdapter.class__name__ := LogicAdapter.class__name__ self;
          LogicAdapter.chatbot := LogicAdapter.chatbot self;
          LogicAdapter.maximum_similarity_threshold :=
            LogicAdapter.maximum_similarity_threshold self;
          LogicAdapter.excluded_words := LogicAdapter.excluded_words self;
          LogicAdapter.search_page_size := v;
          LogicAdapter.compare_statements := LogicAdapter.compare_statements self;
          LogicAdapter.select_response := LogicAdapter.select_response self
        |}
    | Raise e => Raise e
    end.
Proof.
  split; rewrite init_insert_plain_option by discriminate; reflexivity.
Qed.

(** X5: supplying an option with its default value is the same as omitting
    it, for each of the five options. *)
Theorem X5_explicit_default_equals_omitted
    (registry : gmap string Value) (cls : string) (chatbot : Value)
    (kwargs : gmap string Value) (k : string) (d : Value) :
  In (k, d) [("maximum_similarity_threshold", VFloat (95 # 100));
             ("excluded_words", VNone);
             ("search_page_size", VInt 1000);
             ("statement_comparison_function", levenshtein_distance);
             ("response_selection_method", get_first_response)] ->
  kwargs !! k = None ->
  LogicAdapter.__init__ registry cls chatbot (<[k := d]> kwargs)
  = LogicAdapter.__init__ registry cls chatbot kwargs.
Proof.
  assert (Hplain : forall k' d',
            k' <> "statement_comparison_function" ->
            k' <> "response_selection_method" ->
            kwargs !! k' = None ->
            (forall self,
               LogicAdapter.__init__ registry cls chatbot kwargs = Return self ->
               self = {|
                 LogicAdapter.class__name__ := LogicAdapter.class__name__ self;
                 LogicAdapter.chatbot := LogicAdapter.chatbot self;
                 LogicAdapter.maximum_similarity_threshold :=
                   if String.eqb k' "maximum_similarity_threshold" then d'
                   else LogicAdapter.maximum_similarity_threshold self;
                 LogicAdapter.excluded_words :=
                   if String.eqb k' "excluded_words" then d'
                   else LogicAdapter.excluded_words self;
                 LogicAdapter.search_page_size :=
                   if String.eqb k' "search_page_size" then d'
                   else LogicAdapter.search_page_size self;
                 LogicAdapter.compare_statements :=
                   LogicAdapter.compare_statements self;
                 LogicAdapter.select_response := LogicAdapter.select_response self
               |}) ->
            LogicAdapter.__init__ registry cls chatbot (<[k' := d']> kwargs)
            = LogicAdapter.__init__ registry cls chatbot kwargs).
  { intros k' d' Hc Hs Hnone Hself.
    rewrite init_insert_plain_option by assumption.
    destruct (LogicAdapter.__init__ registry cls chatbot kwargs) as [self|e];
      [| reflexivity].
    rewrite <- (Hself self eq_refl). reflexivity. }
  intros [Hk | [Hk | [Hk | [Hk | [Hk | []]]]]] Hnone;
    injection Hk as <- <-.
  - apply Hplain; try discriminate; [exact Hnone |].
    intros self (kw & Hkw & Ht & _ & _)%init_other_key.
    unfold dict_get in Ht. rewrite Hkw, Hnone in Ht by discriminate.
    destruct self; simpl in *. subst. reflexivity.
  - apply Hplain; try discriminate; [exact Hnone |].
    intros self (kw & Hkw & _ & He & _)%init_other_key.
    unfold dict_get in He. rewrite Hkw, Hnone in He by discriminate.
    destruct self; simpl in *. subst. reflexivity.
  - apply Hplain; try discriminate; [exact Hnone |].
    intros self (kw & Hkw & _ & _ & Hp)%init_other_key.
    unfold dict_get in Hp. rewrite Hkw, Hnone in Hp by discriminate.
    destruct self; simpl in *. subst. reflexivity.
  - unfold LogicAdapter.__init__, Adapter.__init__. simpl.
    rewrite (import_string_parameter_not_str registry
               "statement_comparison_function" _ levenshtein_distance)
      by (try apply lookup_insert_eq; reflexivity).
    assert (H1 : LogicAdapter.import_string_parameter registry
                   "statement_comparison_function" kwargs = Return kwargs).
    { unfold LogicAdapter.import_string_parameter. rewrite Hnone. reflexivity. }
    rewrite H1. simpl.
    rewrite import_string_parameter_insert by discriminate.
    destruct (LogicAdapter.import_string_parameter registry
                "response_selection_method" kwargs) as [kwargs2|e2] eqn:H2;
      simpl; [| reflexivity].
    apply import_string_parameter_returns in H2 as [H2 _].
    unfold dict_get.
    rewrite lookup_insert_eq, !lookup_insert_ne by discriminate.
    rewrite (H2 "statement_comparison_function"), Hnone by discriminate.
    reflexivity.
  - unfold LogicAdapter.__init__, Adapter.__init__. simpl.
    rewrite import_string_parameter_insert by discriminate.
    destruct (LogicAdapter.import_string_parameter registry
                "statement_comparison_function" kwargs) as [kwargs1|e1] eqn:H1;
      simpl; [| reflexivity].
    apply import_string_parameter_returns in H1 as [H1 _].
    rewrite (import_string_parameter_not_str registry
               "response_selection_method" _ get_first_response)
      by (try apply lookup_insert_eq; reflexivity).
    assert (H2 : LogicAdapter.import_string_parameter registry
                   "response_selection_method" kwargs1 = Return kwargs1).
    { unfold LogicAdapter.import_string_parameter.
      rewrite H1, Hnone by discriminate. reflexivity. }
    rewrite H2. simpl. unfold dict_get.
    rewrite lookup_insert_eq, !lookup_insert_ne by discriminate.
    rewrite (H1 "response_selection_method"), Hnone by discriminate.
    reflexivity.
Qed.

Lemma X5_explicit_default_equals_omitted_witness :
  LogicAdapter.__init__ ∅ "BestMatch" VNone
    (<["search_page_size" := VInt 1000]> {[ "excluded_words" := VRef 7%positive ]})
  = LogicAdapter.__init__ ∅ "BestMatch" VNone {[ "excluded_words" := VRef 7%positive ]}.
Proof.
  apply (X5_explicit_default_equals_omitted ∅ "BestMatch" VNone
           {[ "excluded_words" := VRef 7%positive ]}
           "search_page_size" (VInt 1000)).
  - simpl. auto.
  - reflexivity.
Defined.

(** X6: an adapter whose two strategies are not strings is what the
    constructor returns when it is given the adapter's class, its chatbot
    and its five attributes as the five options: the attributes hold all
    the configuration the constructor reads. *)
Theorem X6_rebuilt_from_its_attributes
    (registry : gmap string Value) (self : LogicAdapter.t) :
  isinstance_str (LogicAdapter.compare_statements self) = false ->
  isinstance_str (LogicAdapter.select_response self) = false ->
  LogicAdapter.__init__ registry
    (LogicAdapter.class__name__ self) (LogicAdapter.chatbot self)
    (<["statement_comparison_function" := LogicAdapter.compare_statements self]>
     (<["response_selection_method" := LogicAdapter.select_response self]>
      (<["maximum_similarity_threshold" :=
           LogicAdapter.maximum_similarity_threshold self]>
       (<["excluded_words" := LogicAdapter.excluded_words self]>
        (<["search_page_size" := LogicAdapter.search_page_size self]> ∅)))))
  = Return self.
Proof.
  intros Hc Hs. rewrite init_no_resolution.
  - unfold dict_get.
    repeat (rewrite lookup_insert_eq || rewrite lookup_insert_ne by discriminate).
    destruct self; reflexivity.
  - intros path. rewrite lookup_insert_eq. intros [= Heq].
    rewrite Heq in Hc. discriminate.
  - intros path. rewrite lookup_insert_ne by discriminate.
    rewrite lookup_insert_eq. intros [= Heq].
    rewrite Heq in Hs. discriminate.
Qed.

Lemma X6_rebuilt_from_its_attributes_witness :
  let self :=
    LogicAdapter.mk "BestMatch" (VRef 3%positive) (VFloat (9 # 10))
                    (VRef 7%positive) (VInt 50)
                    (VCallable "my_app.compare") get_first_response in
  LogicAdapter.__init__ ∅ "BestMatch" (VRef 3%positive)
    (<["statement_comparison_function" := VCallable "my_app.compare"]>
     (<["response_selection_method" := get_first_response]>
      (<["maximum_similarity_threshold" := VFloat (9 # 10)]>
       (<["excluded_words" := VRef 7%positive]>
        (<["search_page_size" := VInt 50]> ∅)))))
  = Return self.
Proof.
  intros self.
  apply (X6_rebuilt_from_its_attributes ∅ self); reflexivity.
Defined.
